(** * Panic recovery filter of the apiserver (pkg/server/filters/wrap.go)

    A shallow embedding of [WithPanicRecovery], [withPanicRecovery] and
    [currentStack], and the properties of the crash-containment layer.

    Conventions of the embedding.
    - A Go [interface{}] panic value is a [GoValue]; pointers carry the
      address they point to, so that [==] on interfaces is pointer identity.
    - A handler runs in the monad [M]: it threads the request's
      [http.ResponseWriter] and the goroutine stacks as state, appends the
      calls it makes on its collaborators to a log of [Event]s, in program
      order, and either returns or panics.  The parameter [w] of the Go
      source is the writer held by that state.
    - Collaborators that live outside this file (klog, metrics, httplog,
      net/http, apimachinery's runtime) are either recorded as events or
      taken as fields of the class [Collaborators]. *)

From Stdlib Require Import ZArith NArith List Ascii String Lia.
From stdpp Require Import base strings gmap list.

Local Open Scope string_scope.
Local Open Scope list_scope.

(** ** Go values that can be recovered from a panic *)

(** The dynamic type and value of a non-nil [interface{}].  Pointer types
    carry the address of their pointee together with the text their
    [Error()] method returns. *)
Inductive GoValue : Type :=
| ErrorString (addr : N) (text : string)                 (* *errors.errorString *)
| WrapError (addr : N) (text : string) (inner : GoValue) (* *fmt.wrapError, made by %w *)
| StringVal (s : string)                                 (* string *)
| Other (dyn_type : string) (text : string).             (* any other type, with its %v text *)

(** [a == b] on interface values: same dynamic type and equal dynamic
    values; two pointers are equal when they hold the same address. *)
Definition iface_eq (a b : GoValue) : bool :=
  match a, b with
  | ErrorString p _, ErrorString q _ => (p =? q)%N
  | WrapError p _ _, WrapError q _ _ => (p =? q)%N
  | StringVal s, StringVal t => String.eqb s t
  | Other ty s, Other ty' s' => String.eqb ty ty' && String.eqb s s'
  | _, _ => false
  end.

(** The [%v] verb of package fmt on an interface value: an error prints
    its [Error()] text, a string prints itself. *)
Definition fmt_v (v : GoValue) : string :=
  match v with
  | ErrorString _ text => text
  | WrapError _ text _ => text
  | StringVal s => s
  | Other _ text => text
  end.

(** [errors.Is(v, target)]: follows the chain of wrapped errors. *)
Fixpoint errors_Is (v target : GoValue) : bool :=
  iface_eq v target ||
  match v with
  | WrapError _ _ inner => errors_Is inner target
  | _ => false
  end.

(** [http.ErrAbortHandler = errors.New("net/http: abort Handler")], a
    package-level variable initialised once; its address is fixed. *)
Definition ErrAbortHandler_addr : N := 0%N.
Definition ErrAbortHandler : GoValue :=
  ErrorString ErrAbortHandler_addr "net/http: abort Handler".

(** [http.StatusInternalServerError]. *)
Definition StatusInternalServerError : Z := 500%Z.

(** ** Requests and the goroutine stacks *)

Record Request : Type := {
  Method : string;
  RequestURI : string;
}.

(** The stack text the runtime would print for the calling goroutine and
    for every other goroutine of the process. *)
Record Goroutines : Type := {
  current : list Byte.byte;
  others : list (list Byte.byte);
}.

(** [make([]byte, n)]: [n] zero bytes. *)
Definition make_bytes (n : Z) : list Byte.byte :=
  replicate (Z.to_nat n) Byte.x00.

(** [runtime.Stack(buf, all)]: formats the stack of the calling goroutine
    into [buf], followed by those of all other goroutines when [all] is
    true, and returns the buffer and the number of bytes written, which
    never exceeds [len(buf)]. *)
Definition runtime_Stack (g : Goroutines) (buf : list Byte.byte) (all : bool)
  : list Byte.byte * Z :=
  let text := current g ++ (if all then concat (others g) else []) in
  let n := Nat.min (length buf) (length text) in
  (take n text ++ drop n buf, Z.of_nat n).

(** [b[:n]]: a slice expression whose bound is out of range panics. *)
Definition slice_to (b : list Byte.byte) (n : Z) : option (list Byte.byte) :=
  if decide (0 <= n <= Z.of_nat (length b))%Z
  then Some (take (Z.to_nat n) b)
  else None.

(** [currentStack] of the source; [None] stands for a run-time panic. *)
Definition currentStack (g : Goroutines) : option string :=
  (* Only log stacks for errors *)
  let stack := make_bytes (50 * 1024) in
  let '(buf, n) := runtime_Stack g stack false in
  match slice_to buf n with
  | Some stack => Some (String "010" (string_of_list_byte stack))
  | None => None
  end.

(** The value a slice expression out of range panics with. *)
Definition boundsError : GoValue :=
  Other "runtime.boundsError" "runtime error: slice bounds out of range".

(** ** Headers *)

(** [http.Header] is [map[string][]string]. *)
Abbreviation http_Header := (gmap string (list string)).

(** ** Collaborators outside this file *)

(** The two types this file only names. *)
Class Types : Type := {
  (** an implementation of [http.ResponseWriter] *)
  ResponseWriter : Type;
  (** the pointee of [*request.RequestInfo] *)
  RequestInfo : Type;
}.

(** ** Calls on collaborators, in program order *)

Inductive Event `{Types} : Type :=
| HeaderGet (key : string)                (* w.Header().Get(key) *)
| KlogErrorf (msg : string)               (* klog.Errorf, formatted *)
| NewRequestInfo (req : Request)          (* resolver.NewRequestInfo(req) *)
| RecordRequestAbort (req : Request) (info : option RequestInfo)
                                          (* metrics.RecordRequestAbort(req, info) *)
| HandleError (msg : string)              (* runtime.HandleError(err), with err.Error() *)
| HttpError (msg : string) (code : Z)     (* http.Error(w, msg, code) *)
| HandlerCall (what : string).            (* any other call, made by other layers *)

(** ** The monad of handlers *)

Record World `{Types} : Type := {
  writer : ResponseWriter;
  stacks : Goroutines;
}.

(** A run returns or panics; [Panic v] carries what [recover()] yields,
    which is never nil for a panic (the runtime turns [panic(nil)] into a
    [*runtime.PanicNilError]). *)
Inductive Result (A : Type) : Type :=
| Ok (a : A)
| Panic (v : GoValue).
Arguments Ok {A} a.
Arguments Panic {A} v.

Definition M `{Types} (A : Type) : Type := World -> Result A * World * list Event.

(** [http.Handler]: [ServeHTTP(w, req)]. *)
Definition Handler `{Types} : Type := Request -> M unit.

(** [request.RequestInfoResolver]: [NewRequestInfo(req)] returns a
    possibly nil info and a possibly nil error. *)
Definition RequestInfoResolver `{Types} : Type :=
  Request -> option RequestInfo * option GoValue.

(** What the filter takes from net/http, net/textproto, fmt, httplog, the
    audit API and apimachinery's runtime. *)
Class Collaborators `{Types} : Type := {
  (** [w.Header()] *)
  Header : ResponseWriter -> http_Header;
  (** what [http.Error(w, msg, code)] does to [w] *)
  http_Error_on : ResponseWriter -> string -> Z -> ResponseWriter;
  (** [textproto.CanonicalMIMEHeaderKey], under which [Header.Get] looks
      a key up *)
  CanonicalMIMEHeaderKey : string -> string;
  (** [auditinternal.HeaderAuditID] *)
  HeaderAuditID : string;
  (** the [%q] verb on a string ([strconv.Quote]) *)
  fmt_q : string -> string;
  (** [httplog.WithLogging(handler, pred)] *)
  httplog_WithLogging : Handler -> (Z -> bool) -> Handler;
  (** [httplog.DefaultStacktracePred] *)
  httplog_DefaultStacktracePred : Z -> bool;
  (** the process-wide [runtime.PanicHandlers] (by default one that logs
      the panic); they see the recovered value only *)
  PanicHandlers : list (GoValue -> list Event);
  (** [runtime.ReallyCrash]: whether [HandleCrash] raises the panic again
      once every handler ran *)
  ReallyCrash : bool;
}.

Section Filters.
Context {T : Types} {C : Collaborators}.

Definition ret {A} (a : A) : M A := fun s => (Ok a, s, []).

Definition bind {A B} (m : M A) (f : A -> M B) : M B :=
  fun s =>
    match m s with
    | (Ok a, s1, t1) => let '(r, s2, t2) := f a s1 in (r, s2, t1 ++ t2)
    | (Panic v, s1, t1) => (Panic v, s1, t1)
    end.

Notation "x <- m ;; k" := (bind m (fun x => k))
  (at level 100, m at next level, k at level 200, right associativity).
Notation "m ;; k" := (bind m (fun _ => k))
  (at level 100, k at level 200, right associativity).

Definition emit (e : Event) : M unit := fun s => (Ok tt, s, [e]).

Definition panic {A} (v : GoValue) : M A := fun s => (Panic v, s, []).

(** The three components of a run. *)
Definition result_of {A} (o : Result A * World * list Event) : Result A := o.1.1.
Definition world_of {A} (o : Result A * World * list Event) : World := o.1.2.
Definition calls_of {A} (o : Result A * World * list Event) : list Event := o.2.

(** *** Primitive calls *)

(** [Header.Get(key)]: the first value stored under the canonical form of
    [key], and the empty string when there is none. *)
Definition Header_Get (h : http_Header) (key : string) : string :=
  match h !! CanonicalMIMEHeaderKey key with
  | Some (v :: _) => v
  | _ => ""
  end.

Definition w_Header_Get (key : string) : M string :=
  fun s => (Ok (Header_Get (Header (writer s)) key), s, [HeaderGet key]).

(** The call [currentStack()], on the stacks of the moment. *)
Definition call_currentStack : M string :=
  fun s =>
    match currentStack (stacks s) with
    | Some stack => (Ok stack, s, [])
    | None => (Panic boundsError, s, [])
    end.

Definition klog_Errorf (msg : string) : M unit := emit (KlogErrorf msg).

Definition resolver_NewRequestInfo (resolver : RequestInfoResolver) (req : Request)
  : M (option RequestInfo * option GoValue) :=
  fun s => (Ok (resolver req), s, [NewRequestInfo req]).

Definition metrics_RecordRequestAbort (req : Request) (info : option RequestInfo)
  : M unit := emit (RecordRequestAbort req info).

Definition runtime_HandleError (msg : string) : M unit := emit (HandleError msg).

Definition http_Error (msg : string) (code : Z) : M unit :=
  fun s => (Ok tt,
            {| writer := http_Error_on (writer s) msg code; stacks := stacks s |},
            [HttpError msg code]).

(** ** apimachinery's [runtime.HandleCrash] *)

Fixpoint for_each {A} (fns : list (A -> M unit)) (a : A) : M unit :=
  match fns with
  | [] => ret tt
  | fn :: rest => fn a ;; for_each rest a
  end.

(** A process-wide panic handler as a call. *)
Definition global_handler (fn : GoValue -> list Event) (r : GoValue) : M unit :=
  fun s => (Ok tt, s, fn r).

(** [HandleCrash(additionalHandlers...)], where [recovered] is what its
    call of [recover()] yields: [None] for nil. *)
Definition runtime_HandleCrash (recovered : option GoValue)
    (additionalHandlers : list (GoValue -> M unit)) : M unit :=
  match recovered with
  | None => ret tt
  | Some r =>
      for_each (map global_handler PanicHandlers) r ;;
      for_each additionalHandlers r ;;
      if ReallyCrash then
        (* Actually proceed to panic. *)
        panic r
      else ret tt
  end.

(** [defer deferred(); body]: the deferred call runs when [body] returns
    and when it panics.  [deferred] starts with [recover()], which yields
    the value [body] panicked with and stops that panic; a panic of
    [deferred] itself is the panic of the whole. *)
Definition defer (deferred : option GoValue -> M unit) (body : M unit) : M unit :=
  fun s =>
    match body s with
    | (Ok _, s1, t1) => let '(r, s2, t2) := deferred None s1 in (r, s2, t1 ++ t2)
    | (Panic v, s1, t1) => let '(r, s2, t2) := deferred (Some v) s1 in (r, s2, t1 ++ t2)
    end.

(** ** The filter *)

Definition withPanicRecovery (handler : Handler)
    (crashHandler : Request -> GoValue -> M unit) : Handler :=
  let handler := httplog_WithLogging handler httplog_DefaultStacktracePred in
  fun req =>
    defer (fun recovered =>
             runtime_HandleCrash recovered [fun err => crashHandler req err])
      (* Dispatch to the internal handler *)
      (handler req).

(** The function literal [WithPanicRecovery] hands to [withPanicRecovery]. *)
Definition crashHandler (resolver : RequestInfoResolver)
    (req : Request) (err : GoValue) : M unit :=
  (* Get audit ID from response header *)
  auditID <- w_Header_Get HeaderAuditID ;;
  stack <- call_currentStack ;;
  klog_Errorf ("As soon as the panic occurs, immediately output the error stack, method: "
               +:+ Method req +:+ ", URI: " +:+ RequestURI req
               +:+ ", auditID: " +:+ auditID
               +:+ ", current error: " +:+ fmt_v err
               +:+ ", error stack: " +:+ stack) ;;
  if iface_eq err ErrAbortHandler then
    klog_Errorf ("Encountered an http.ErrAbortHandler error, method: "
                 +:+ Method req +:+ ", URI: " +:+ RequestURI req
                 +:+ ", auditID: " +:+ auditID
                 +:+ ", current error: " +:+ fmt_v err) ;;
    (* Honor the http.ErrAbortHandler sentinel panic value *)
    r <- resolver_NewRequestInfo resolver req ;;
    match r with
    | (_, Some _) => metrics_RecordRequestAbort req None
    | (info, None) => metrics_RecordRequestAbort req info
    end ;;
    (* Call it after the metrics are updated *)
    runtime_HandleError ("timeout or abort while handling, method: "
                         +:+ Method req +:+ ", URI: " +:+ fmt_q (RequestURI req)
                         +:+ ", auditID: " +:+ fmt_q auditID)
  else
    http_Error "This request caused apiserver to panic. Look in the logs for details."
               StatusInternalServerError ;;
    klog_Errorf ("apiserver panic'd on method: "
                 +:+ Method req +:+ ", URI: " +:+ RequestURI req
                 +:+ ", auditID: " +:+ auditID).

Definition WithPanicRecovery (handler : Handler) (resolver : RequestInfoResolver)
  : Handler :=
  withPanicRecovery handler (crashHandler resolver).

End Filters.

(** ** What the properties speak of *)

(** The text [currentStack] returns: a newline, then the stack of the
    calling goroutine cut at 50 KiB. *)
Definition stack_text (g : Goroutines) : string :=
  String "010" (string_of_list_byte (take (Z.to_nat (50 * 1024)) (current g))).

(** The body of the 500 response. *)
Definition panic_body : string :=
  "This request caused apiserver to panic. Look in the logs for details.".

(** The four messages of the crash handler, by the audit ID they carry. *)
Definition stack_record (req : Request) (auditID : string) (v : GoValue)
    (stack : string) : string :=
  "As soon as the panic occurs, immediately output the error stack, method: "
  +:+ Method req +:+ ", URI: " +:+ RequestURI req +:+ ", auditID: " +:+ auditID
  +:+ ", current error: " +:+ fmt_v v +:+ ", error stack: " +:+ stack.

Definition abort_record (req : Request) (auditID : string) (v : GoValue) : string :=
  "Encountered an http.ErrAbortHandler error, method: "
  +:+ Method req +:+ ", URI: " +:+ RequestURI req +:+ ", auditID: " +:+ auditID
  +:+ ", current error: " +:+ fmt_v v.

Definition summary_record (req : Request) (auditID : string) : string :=
  "apiserver panic'd on method: "
  +:+ Method req +:+ ", URI: " +:+ RequestURI req +:+ ", auditID: " +:+ auditID.

Section Observations.
Context {T : Types} {C : Collaborators}.

Definition report_message (req : Request) (auditID : string) : string :=
  "timeout or abort while handling, method: "
  +:+ Method req +:+ ", URI: " +:+ fmt_q (RequestURI req)
  +:+ ", auditID: " +:+ fmt_q auditID.

(** The audit ID a writer carries. *)
Definition audit_id_of (s : World) : string :=
  Header_Get (Header (writer s)) HeaderAuditID.

(** The handler the guard dispatches to. *)
Definition dispatched (handler : Handler) : Handler :=
  httplog_WithLogging handler httplog_DefaultStacktracePred.

(** The calls of the process-wide panic handlers on [r]. *)
Definition global_calls (r : GoValue) : list Event :=
  flat_map (fun fn => fn r) PanicHandlers.

(** The calls that write to the response. *)
Definition is_response_write (e : Event) : bool :=
  match e with
  | HttpError _ _ => true
  | _ => false
  end.

Definition response_writes (t : list Event) : list Event :=
  filter (fun e => is_response_write e = true) t.

Definition is_header_read (e : Event) : bool :=
  match e with
  | HeaderGet _ => true
  | _ => false
  end.

(** The calls of a crash handler run after its unconditional record, on
    either path. *)
Definition abort_calls (resolver : RequestInfoResolver) (req : Request)
    (auditID : string) (v : GoValue) : list Event :=
  [KlogErrorf (abort_record req auditID v);
   NewRequestInfo req;
   RecordRequestAbort req
     (match resolver req with
      | (_, Some _) => None
      | (info, None) => info
      end);
   HandleError (report_message req auditID)].

Definition generic_calls (req : Request) (auditID : string) : list Event :=
  [HttpError panic_body StatusInternalServerError;
   KlogErrorf (summary_record req auditID)].

(** The composition the specification describes: the logging decorator
    around the recovery guard, the guard around the bare handler. *)
Definition withPanicRecovery_logging_outside (handler : Handler)
    (crashHandler : Request -> GoValue -> M unit) : Handler :=
  httplog_WithLogging
    (fun req =>
       defer (fun recovered =>
                runtime_HandleCrash recovered [fun err => crashHandler req err])
         (handler req))
    httplog_DefaultStacktracePred.

(** The calls on the request-info resolver. *)
Definition is_resolver_call (e : Event) : bool :=
  match e with
  | NewRequestInfo _ => true
  | _ => false
  end.

Definition resolver_calls (t : list Event) : list Event :=
  filter (fun e => is_resolver_call e = true) t.

(** A logging decorator that raises no panic of its own: around a handler
    that always returns, it always returns. *)
Definition quiet_decorator : Prop :=
  forall h : Handler,
    (forall req s, result_of (h req s) = Ok tt) ->
    forall req s, result_of (dispatched h req s) = Ok tt.

End Observations.

(** ** A recording writer and simple collaborators, to run the filter on *)

Module Demo.

(** After [httptest.ResponseRecorder]. *)
Record ResponseRecorder : Type := {
  HeaderMap : http_Header;
  Code : option Z;
  Body : string;
}.

#[export] Instance types : Types := {|
  ResponseWriter := ResponseRecorder;
  RequestInfo := string;
|}.

(** [http.Error] on the recorder: content headers, the status unless one
    was sent before, and the message as a line of the body. *)
Definition recorder_Error (w : ResponseRecorder) (msg : string) (code : Z)
  : ResponseRecorder :=
  {| HeaderMap := <["X-Content-Type-Options" := ["nosniff"]]>
                    (<["Content-Type" := ["text/plain; charset=utf-8"]]> (HeaderMap w));
     Code := match Code w with None => Some code | Some c => Some c end;
     Body := Body w +:+ msg +:+ String "010" "" |}.

Definition canonical (key : string) : string :=
  if String.eqb key "Audit-ID" then "Audit-Id" else key.

Definition quote (s : string) : string :=
  String "034" (s +:+ String "034" "").

(** A logging decorator that brackets the handler it wraps. *)
Definition logging (h : Handler) (pred : Z -> bool) : Handler :=
  fun req =>
    bind (emit (HandlerCall "httplog: request received")) (fun _ =>
    bind (h req) (fun _ =>
    emit (HandlerCall "httplog: request served"))).

(** A logging decorator whose own code panics once the handler it wraps
    has returned. *)
Definition faulty_logging (h : Handler) (pred : Z -> bool) : Handler :=
  fun req =>
    bind (h req) (fun _ => panic (StringVal "httplog: broken")).

(** After apimachinery's [logPanic]. *)
Definition logPanic (r : GoValue) : list Event :=
  if iface_eq r ErrAbortHandler then []
  else [HandlerCall ("Observed a panic: " +:+ fmt_v r)].

Definition collaborators_with
    (logger : Handler -> (Z -> bool) -> Handler) (crash : bool) : Collaborators := {|
  Header := HeaderMap;
  http_Error_on := recorder_Error;
  CanonicalMIMEHeaderKey := canonical;
  HeaderAuditID := "Audit-ID";
  fmt_q := quote;
  httplog_WithLogging := logger;
  httplog_DefaultStacktracePred := fun status => (500 <=? status)%Z;
  PanicHandlers := [logPanic];
  ReallyCrash := crash;
|}.

#[export] Instance collaborators : Collaborators := collaborators_with logging false.

(** The same collaborators around the decorator that panics. *)
Definition faulty : Collaborators := collaborators_with faulty_logging false.

Definition get_pods : Request := {| Method := "GET"; RequestURI := "/api/v1/pods" |}.

Definition fresh : World := {|
  writer := {| HeaderMap := {[ "Audit-Id" := ["a1b2"] ]}; Code := None; Body := "" |};
  stacks := {| current := list_byte_of_string "goroutine 7 [running]:";
               others := [list_byte_of_string "goroutine 1 [chan receive]:"] |};
|}.

(** The same state with no audit header. *)
Definition unaudited : World := {|
  writer := {| HeaderMap := ∅; Code := None; Body := "" |};
  stacks := stacks fresh;
|}.

(** The state of [fresh] seen from another goroutine. *)
Definition elsewhere : World := {|
  writer := writer fresh;
  stacks := {| current := list_byte_of_string "goroutine 9 [running]:"; others := [] |};
|}.

(** An error of its own with the text of [http.ErrAbortHandler]. *)
Definition lookalike : GoValue := ErrorString 7 "net/http: abort Handler".

Definition panics_with (v : GoValue) : Handler :=
  fun _ => bind (emit (HandlerCall "inner handler")) (fun _ => panic v).

Definition serves : Handler :=
  fun _ => emit (HandlerCall "inner handler").

Definition resolves : RequestInfoResolver :=
  fun _ => (Some "list", None).

Definition fails_to_resolve : RequestInfoResolver :=
  fun _ => (None, Some (ErrorString 9 "unable to resolve")).

(** A goroutine whose stack text is longer than 50 KiB, and one with no
    text at all. *)
Definition deep : Goroutines := {|
  current := replicate (Z.to_nat 60000) Byte.x61;
  others := [];
|}.

Definition bare : Goroutines := {| current := []; others := [] |}.

(** A crash handler that panics itself. *)
Definition broken_crash_handler : Request -> GoValue -> M unit :=
  fun _ _ => panic (StringVal "crash handler broke").

(** The collaborators of [collaborators] with [runtime.ReallyCrash] on. *)
Definition crashing : Collaborators := collaborators_with logging true.

End Demo.

(** * Properties *)

(** ** Stack capture *)

Lemma length_string_of_list_byte (l : list Byte.byte) :
  String.length (string_of_list_byte l) = length l.
Proof.
  unfold string_of_list_byte.
  induction l as [|b l IH]; simpl; [reflexivity | now rewrite IH].
Qed.

Lemma length_make_bytes (n : Z) : length (make_bytes n) = Z.to_nat n.
Proof. unfold make_bytes. apply length_replicate. Qed.

(** The bytes [runtime.Stack] reports fit the buffer. *)
Lemma runtime_Stack_bound (g : Goroutines) (buf : list Byte.byte) (all : bool) :
  (0 <= (runtime_Stack g buf all).2 <= Z.of_nat (length buf))%Z.
Proof. unfold runtime_Stack. simpl. lia. Qed.

Lemma runtime_Stack_length (g : Goroutines) (buf : list Byte.byte) (all : bool) :
  length (runtime_Stack g buf all).1 = length buf.
Proof.
  unfold runtime_Stack. simpl.
  rewrite length_app, length_take, length_drop. lia.
Qed.

(** The written part of the buffer is the head of the calling goroutine's
    stack. *)
Lemma runtime_Stack_written (g : Goroutines) (buf : list Byte.byte) :
  take (Z.to_nat (runtime_Stack g buf false).2) (runtime_Stack g buf false).1
  = take (length buf) (current g).
Proof.
  unfold runtime_Stack. simpl. rewrite app_nil_r, Nat2Z.id.
  rewrite take_app_le by (rewrite length_take; lia).
  rewrite take_take.
  destruct (Nat.le_gt_cases (length buf) (length (current g))) as [Hle|Hgt].
  - f_equal. lia.
  - rewrite (take_ge (current g) (length buf)) by lia.
    apply take_ge. lia.
Qed.

Lemma currentStack_total (g : Goroutines) : currentStack g = Some (stack_text g).
Proof.
  unfold currentStack, stack_text, slice_to.
  pose proof (runtime_Stack_bound g (make_bytes (50 * 1024)) false) as Hb.
  pose proof (runtime_Stack_length g (make_bytes (50 * 1024)) false) as Hl.
  pose proof (runtime_Stack_written g (make_bytes (50 * 1024))) as Hw.
  destruct (runtime_Stack g (make_bytes (50 * 1024)) false) as [buf n].
  cbn [fst snd] in Hb, Hl, Hw.
  rewrite decide_True by (rewrite Hl; exact Hb).
  rewrite Hw, length_make_bytes. reflexivity.
Qed.

(** C6: [currentStack] never fails; it returns one newline followed by
    the stack of the calling goroutine cut at 50 KiB, whatever the other
    goroutines are doing. *)
Theorem C6_currentStack_total_and_bounded (stack : list Byte.byte)
    (rest rest' : list (list Byte.byte)) :
  currentStack {| current := stack; others := rest |}
  = Some (String "010" (string_of_list_byte (take (Z.to_nat (50 * 1024)) stack)))
  /\ currentStack {| current := stack; others := rest' |}
     = currentStack {| current := stack; others := rest |}
  /\ (Z.of_nat (String.length (stack_text {| current := stack; others := rest |}))
      <= 1 + 50 * 1024)%Z.
Proof.
  split; [|split].
  - apply currentStack_total.
  - now rewrite !currentStack_total.
  - unfold stack_text. cbn [String.length current].
    rewrite length_string_of_list_byte, length_take. lia.
Qed.

Section Properties.
Context {T : Types} {C : Collaborators}.

Implicit Types (s : World) (t : list Event) (v : GoValue) (req : Request).

(** ** Runs of the primitives *)

Lemma call_currentStack_run s :
  call_currentStack s = (Ok (stack_text (stacks s)), s, []).
Proof. unfold call_currentStack. now rewrite currentStack_total. Qed.

Lemma for_each_global (fns : list (GoValue -> list Event)) v s :
  for_each (map global_handler fns) v s = (Ok tt, s, flat_map (fun fn => fn v) fns).
Proof.
  induction fns as [|fn fns IH]; simpl.
  - reflexivity.
  - unfold bind at 1. unfold global_handler at 1. now rewrite IH.
Qed.

(** ** Runs of the crash handler *)

Ltac run_crashHandler :=
  unfold crashHandler, w_Header_Get, klog_Errorf, emit,
    resolver_NewRequestInfo, metrics_RecordRequestAbort,
    runtime_HandleError, http_Error;
  unfold bind at 1; cbv beta iota;
  unfold bind at 1; rewrite call_currentStack_run; cbv beta iota;
  unfold bind at 1; cbv beta iota.

Lemma crashHandler_abort (resolver : RequestInfoResolver) req v s :
  iface_eq v ErrAbortHandler = true ->
  crashHandler resolver req v s
  = (Ok tt, s,
     HeaderGet HeaderAuditID
       :: KlogErrorf (stack_record req (audit_id_of s) v (stack_text (stacks s)))
       :: abort_calls resolver req (audit_id_of s) v).
Proof.
  intros Hv. run_crashHandler. rewrite Hv.
  unfold bind, abort_calls. cbv beta iota.
  destruct (resolver req) as [info [e|]]; reflexivity.
Qed.

Lemma crashHandler_generic (resolver : RequestInfoResolver) req v s :
  iface_eq v ErrAbortHandler = false ->
  crashHandler resolver req v s
  = (Ok tt,
     {| writer := http_Error_on (writer s) panic_body StatusInternalServerError;
        stacks := stacks s |},
     HeaderGet HeaderAuditID
       :: KlogErrorf (stack_record req (audit_id_of s) v (stack_text (stacks s)))
       :: generic_calls req (audit_id_of s)).
Proof.
  intros Hv. run_crashHandler. rewrite Hv.
  unfold bind, generic_calls. reflexivity.
Qed.

Lemma crashHandler_calls (resolver : RequestInfoResolver) req v s :
  calls_of (crashHandler resolver req v s)
  = HeaderGet HeaderAuditID
    :: KlogErrorf (stack_record req (audit_id_of s) v (stack_text (stacks s)))
    :: (if iface_eq v ErrAbortHandler
        then abort_calls resolver req (audit_id_of s) v
        else generic_calls req (audit_id_of s)).
Proof.
  destruct (iface_eq v ErrAbortHandler) eqn:Hv.
  - now rewrite (crashHandler_abort resolver req v s Hv).
  - now rewrite (crashHandler_generic resolver req v s Hv).
Qed.

(** ** Runs of the guard *)

Lemma withPanicRecovery_returns (handler : Handler)
    (ch : Request -> GoValue -> M unit) req s s1 t1 :
  dispatched handler req s = (Ok tt, s1, t1) ->
  withPanicRecovery handler ch req s = (Ok tt, s1, t1).
Proof.
  unfold dispatched, withPanicRecovery, defer. intros ->.
  simpl. now rewrite app_nil_r.
Qed.

Lemma withPanicRecovery_panics (handler : Handler)
    (ch : Request -> GoValue -> M unit) req s v s1 t1 r s2 t2 :
  dispatched handler req s = (Panic v, s1, t1) ->
  ch req v s1 = (r, s2, t2) ->
  withPanicRecovery handler ch req s
  = (match r with
     | Ok _ => if ReallyCrash then Panic v else Ok tt
     | Panic v' => Panic v'
     end, s2, t1 ++ global_calls v ++ t2).
Proof.
  unfold dispatched, withPanicRecovery, defer. intros -> Hch.
  unfold runtime_HandleCrash.
  unfold bind at 1. rewrite for_each_global. fold (global_calls v).
  unfold bind at 1. simpl for_each. unfold bind at 1. rewrite Hch.
  destruct r as [[]|v'].
  - unfold ret. destruct ReallyCrash; unfold panic; simpl;
      now rewrite !app_nil_r.
  - simpl. reflexivity.
Qed.

(** ** The generic path *)

(** C1: when the handler the guard dispatches to panics with a value that
    is not [http.ErrAbortHandler], the wrapped handler makes, after the
    process-wide panic handlers, exactly these calls: the read of the audit
    ID, one unconditional stack record, one [http.Error] with status 500 and
    the fixed body, one summary record; the writer is the one the panic
    left with that single [http.Error] applied. *)
Theorem C1_generic_panic_yields_500 (handler : Handler)
    (resolver : RequestInfoResolver) req s v s1 t1 :
  iface_eq v ErrAbortHandler = false ->
  dispatched handler req s = (Panic v, s1, t1) ->
  WithPanicRecovery handler resolver req s
  = (if ReallyCrash then Panic v else Ok tt,
     {| writer :=
          http_Error_on (writer s1)
            "This request caused apiserver to panic. Look in the logs for details."
            500;
        stacks := stacks s1 |},
     t1 ++ global_calls v ++
       [HeaderGet HeaderAuditID;
        KlogErrorf
          ("As soon as the panic occurs, immediately output the error stack, method: "
           +:+ Method req +:+ ", URI: " +:+ RequestURI req
           +:+ ", auditID: " +:+ audit_id_of s1
           +:+ ", current error: " +:+ fmt_v v
           +:+ ", error stack: " +:+ stack_text (stacks s1));
        HttpError
          "This request caused apiserver to panic. Look in the logs for details."
          500;
        KlogErrorf
          ("apiserver panic'd on method: "
           +:+ Method req +:+ ", URI: " +:+ RequestURI req
           +:+ ", auditID: " +:+ audit_id_of s1)]).
Proof.
  intros Hv Hpanic. unfold WithPanicRecovery.
  rewrite (withPanicRecovery_panics _ _ _ _ _ _ _ _ _ _ Hpanic
             (crashHandler_generic resolver req v s1 Hv)).
  reflexivity.
Qed.

(** ** The abort path *)

(** C2: on [http.ErrAbortHandler] the crash handler leaves the writer as
    it found it, makes no call that writes a response, and makes exactly one
    unconditional stack record, one abort record, one call of the abort
    metric and one report, then returns. *)
Theorem C2_abort_writes_nothing (resolver : RequestInfoResolver) req v s :
  iface_eq v ErrAbortHandler = true ->
  crashHandler resolver req v s
  = (Ok tt, s,
     [HeaderGet HeaderAuditID;
      KlogErrorf (stack_record req (audit_id_of s) v (stack_text (stacks s)));
      KlogErrorf (abort_record req (audit_id_of s) v);
      NewRequestInfo req;
      RecordRequestAbort req
        (match resolver req with
         | (_, Some _) => None
         | (info, None) => info
         end);
      HandleError (report_message req (audit_id_of s))])
  /\ response_writes (calls_of (crashHandler resolver req v s)) = [].
Proof.
  intros Hv. rewrite (crashHandler_abort resolver req v s Hv).
  split; reflexivity.
Qed.

(** ** The guard *)

(** C3: the guard runs the crash handler once when the handler it
    dispatches to panics, and not at all when it returns: on a return the
    run of the wrapped handler is the run of the dispatched one, with no
    call added; on a panic with [v] it is that run followed by the
    process-wide handlers and one run of the crash handler on [v]. *)
Theorem C3_crash_handler_runs_iff_panic (handler : Handler)
    (ch : Request -> GoValue -> M unit) req s :
  withPanicRecovery handler ch req s
  = match dispatched handler req s with
    | (Ok _, s1, t1) => (Ok tt, s1, t1)
    | (Panic v, s1, t1) =>
        (match result_of (ch req v s1) with
         | Ok _ => if ReallyCrash then Panic v else Ok tt
         | Panic v' => Panic v'
         end,
         world_of (ch req v s1),
         t1 ++ global_calls v ++ calls_of (ch req v s1))
    end.
Proof.
  destruct (dispatched handler req s) as [[[[]|v] s1] t1] eqn:Hrun.
  - exact (withPanicRecovery_returns handler ch req s s1 t1 Hrun).
  - destruct (ch req v s1) as [[r s2] t2] eqn:Hch.
    exact (withPanicRecovery_panics handler ch req s v s1 t1 r s2 t2 Hrun Hch).
Qed.

(** C4: whatever the class of the failure, the crash handler first reads
    the audit ID and emits the unconditional record, which carries the
    method, the URI, the audit ID, the text of the failure value and the
    stack; every call that depends on the class comes after it. *)
Theorem C4_stack_record_precedes_classification
    (resolver : RequestInfoResolver) req v s :
  calls_of (crashHandler resolver req v s)
  = HeaderGet HeaderAuditID
    :: KlogErrorf
         ("As soon as the panic occurs, immediately output the error stack, method: "
          +:+ Method req +:+ ", URI: " +:+ RequestURI req
          +:+ ", auditID: " +:+ audit_id_of s
          +:+ ", current error: " +:+ fmt_v v
          +:+ ", error stack: " +:+ stack_text (stacks s))
    :: (if iface_eq v ErrAbortHandler
        then abort_calls resolver req (audit_id_of s) v
        else generic_calls req (audit_id_of s)).
Proof. apply crashHandler_calls. Qed.

(** C5: on the abort path an error of the resolver does not propagate:
    the crash handler returns, having recorded the abort metric with no
    info when the resolver failed and with the resolved info when it did
    not, and having called the reporter once, after the metric. *)
Theorem C5_resolver_error_is_contained (resolver : RequestInfoResolver) req v s :
  iface_eq v ErrAbortHandler = true ->
  (forall info e, resolver req = (info, Some e) ->
     crashHandler resolver req v s
     = (Ok tt, s,
        [HeaderGet HeaderAuditID;
         KlogErrorf (stack_record req (audit_id_of s) v (stack_text (stacks s)));
         KlogErrorf (abort_record req (audit_id_of s) v);
         NewRequestInfo req;
         RecordRequestAbort req None;
         HandleError (report_message req (audit_id_of s))]))
  /\ (forall info, resolver req = (info, None) ->
     crashHandler resolver req v s
     = (Ok tt, s,
        [HeaderGet HeaderAuditID;
         KlogErrorf (stack_record req (audit_id_of s) v (stack_text (stacks s)));
         KlogErrorf (abort_record req (audit_id_of s) v);
         NewRequestInfo req;
         RecordRequestAbort req info;
         HandleError (report_message req (audit_id_of s))])).
Proof.
  intros Hv. rewrite (crashHandler_abort resolver req v s Hv).
  unfold abort_calls. split; intros; now rewrite H.
Qed.

(** ** What reaches the client *)

(** C7: the writes of the crash handler to the response do not depend on
    the failure value nor on the stack: for two values other than
    [http.ErrAbortHandler], and stacks that may differ, the writer ends in
    the same state, by the same single [http.Error] with status 500 and the
    fixed body; on [http.ErrAbortHandler] nothing is written. *)
Theorem C7_response_independent_of_failure (resolver : RequestInfoResolver)
    req v1 v2 s1 s2 :
  iface_eq v1 ErrAbortHandler = false ->
  iface_eq v2 ErrAbortHandler = false ->
  writer s1 = writer s2 ->
  writer (world_of (crashHandler resolver req v1 s1))
  = writer (world_of (crashHandler resolver req v2 s2))
  /\ response_writes (calls_of (crashHandler resolver req v1 s1))
     = [HttpError
          "This request caused apiserver to panic. Look in the logs for details."
          500]
  /\ response_writes (calls_of (crashHandler resolver req v2 s2))
     = response_writes (calls_of (crashHandler resolver req v1 s1))
  /\ (forall v s, iface_eq v ErrAbortHandler = true ->
        response_writes (calls_of (crashHandler resolver req v s)) = []
        /\ world_of (crashHandler resolver req v s) = s).
Proof.
  intros Hv1 Hv2 Hw.
  rewrite (crashHandler_generic resolver req v1 s1 Hv1).
  rewrite (crashHandler_generic resolver req v2 s2 Hv2).
  repeat split.
  - unfold world_of. cbn [fst snd writer]. now rewrite Hw.
  - rewrite (crashHandler_abort resolver req v s H). reflexivity.
  - now rewrite (crashHandler_abort resolver req v s H).
Qed.

(** ** Classification *)

Lemma iface_eq_ErrAbortHandler v :
  iface_eq v ErrAbortHandler = true
  <-> exists text, v = ErrorString ErrAbortHandler_addr text.
Proof.
  split.
  - destruct v as [addr text| | |]; simpl; try discriminate.
    intros Heq. apply N.eqb_eq in Heq. subst addr. now exists text.
  - intros [text ->]. reflexivity.
Qed.

(** C9: the class is decided by identity with the one value
    [http.ErrAbortHandler]: another error with the very same text, and an
    error that wraps [http.ErrAbortHandler] (so that [errors.Is] holds),
    take the generic path with its 500 response; the crash handler takes the
    abort path exactly for the pointer [http.ErrAbortHandler] is. *)
Theorem C9_classification_by_identity (resolver : RequestInfoResolver) req s :
  (forall addr, addr <> ErrAbortHandler_addr ->
     let v := ErrorString addr (fmt_v ErrAbortHandler) in
     calls_of (crashHandler resolver req v s)
     = HeaderGet HeaderAuditID
       :: KlogErrorf (stack_record req (audit_id_of s) v (stack_text (stacks s)))
       :: generic_calls req (audit_id_of s))
  /\ (forall addr text,
     let v := WrapError addr text ErrAbortHandler in
     errors_Is v ErrAbortHandler = true
     /\ calls_of (crashHandler resolver req v s)
        = HeaderGet HeaderAuditID
          :: KlogErrorf (stack_record req (audit_id_of s) v (stack_text (stacks s)))
          :: generic_calls req (audit_id_of s))
  /\ (forall v,
     calls_of (crashHandler resolver req v s)
     = HeaderGet HeaderAuditID
       :: KlogErrorf (stack_record req (audit_id_of s) v (stack_text (stacks s)))
       :: abort_calls resolver req (audit_id_of s) v
     <-> exists text, v = ErrorString ErrAbortHandler_addr text).
Proof.
  split; [|split].
  - intros addr Haddr v.
    rewrite crashHandler_generic; [reflexivity|].
    simpl. now apply N.eqb_neq.
  - intros addr text v. split; [reflexivity|].
    now rewrite crashHandler_generic.
  - intros v. rewrite <- iface_eq_ErrAbortHandler.
    destruct (iface_eq v ErrAbortHandler) eqn:Hv.
    + now rewrite (crashHandler_abort resolver req v s Hv).
    + rewrite (crashHandler_generic resolver req v s Hv).
      split; [|discriminate]. unfold calls_of, generic_calls, abort_calls.
      cbn [snd]. intros Heq. discriminate Heq.
Qed.

(** ** The audit ID *)

(** C10: the crash handler reads the audit ID from the response header
    once, as its first call; the value read then is the one in the
    unconditional record, in the abort record and the report, and in the
    summary record; with no such header it is the empty string. *)
Theorem C10_audit_id_read_once (resolver : RequestInfoResolver) req v s :
  calls_of (crashHandler resolver req v s)
  = HeaderGet HeaderAuditID
    :: KlogErrorf (stack_record req (audit_id_of s) v (stack_text (stacks s)))
    :: (if iface_eq v ErrAbortHandler
        then [KlogErrorf (abort_record req (audit_id_of s) v);
              NewRequestInfo req;
              RecordRequestAbort req
                (match resolver req with
                 | (_, Some _) => None
                 | (info, None) => info
                 end);
              HandleError (report_message req (audit_id_of s))]
        else [HttpError panic_body StatusInternalServerError;
              KlogErrorf (summary_record req (audit_id_of s))])
  /\ filter (fun e => is_header_read e = true) (calls_of (crashHandler resolver req v s))
     = [HeaderGet HeaderAuditID]
  /\ (Header (writer s) !! CanonicalMIMEHeaderKey HeaderAuditID = None ->
      audit_id_of s = "").
Proof.
  split; [|split].
  - apply crashHandler_calls.
  - destruct (iface_eq v ErrAbortHandler) eqn:Hv.
    + now rewrite (crashHandler_abort resolver req v s Hv).
    + now rewrite (crashHandler_generic resolver req v s Hv).
  - unfold audit_id_of, Header_Get. now intros ->.
Qed.

(** ** Where the logging decorator sits *)

(** C8, as the code has it: the logging decorator is applied once, to the
    inner handler, and inside the recovery guard.  The guard dispatches to
    the decorated handler: when that returns, so does the wrapped handler,
    with the very same calls; and a panic out of the decorator's own code,
    the inner handler returning from every state, is recovered and handed
    to the crash handler. *)
Theorem C8_logging_inside_guard (handler : Handler)
    (ch : Request -> GoValue -> M unit) req s :
  (forall s1 t1,
     httplog_WithLogging handler httplog_DefaultStacktracePred req s = (Ok tt, s1, t1) ->
     withPanicRecovery handler ch req s = (Ok tt, s1, t1))
  /\ (forall v s1 t1,
     (forall s0, result_of (handler req s0) = Ok tt) ->
     httplog_WithLogging handler httplog_DefaultStacktracePred req s = (Panic v, s1, t1) ->
     calls_of (withPanicRecovery handler ch req s)
     = t1 ++ global_calls v ++ calls_of (ch req v s1)
     /\ world_of (withPanicRecovery handler ch req s) = world_of (ch req v s1)).
Proof.
  split.
  - intros s1 t1 Hrun.
    exact (withPanicRecovery_returns handler ch req s s1 t1 Hrun).
  - intros v s1 t1 _ Hrun.
    destruct (ch req v s1) as [[r s2] t2] eqn:Hch.
    rewrite (withPanicRecovery_panics handler ch req s v s1 t1 r s2 t2 Hrun Hch).
    split; reflexivity.
Qed.

End Properties.

(** * Further properties of the filter *)

Section Further.
Context {T : Types} {C : Collaborators}.

Implicit Types (s : World) (t : list Event) (v : GoValue) (req : Request).

(** The crash handler itself never panics. *)
Lemma crashHandler_result (resolver : RequestInfoResolver) req v s :
  result_of (crashHandler resolver req v s) = Ok tt.
Proof.
  destruct (iface_eq v ErrAbortHandler) eqn:Hv.
  - now rewrite (crashHandler_abort resolver req v s Hv).
  - now rewrite (crashHandler_generic resolver req v s Hv).
Qed.

Lemma WithPanicRecovery_result (handler : Handler)
    (resolver : RequestInfoResolver) req s :
  result_of (WithPanicRecovery handler resolver req s)
  = match result_of (dispatched handler req s) with
    | Ok _ => Ok tt
    | Panic v => if ReallyCrash then Panic v else Ok tt
    end.
Proof.
  unfold WithPanicRecovery.
  destruct (dispatched handler req s) as [[[[]|v] s1] t1] eqn:Hrun.
  - now rewrite (withPanicRecovery_returns handler _ req s s1 t1 Hrun).
  - pose proof (crashHandler_result resolver req v s1) as Hres.
    destruct (crashHandler resolver req v s1) as [[r s2] t2] eqn:Hch.
    rewrite (withPanicRecovery_panics handler _ req s v s1 t1 r s2 t2 Hrun Hch).
    unfold result_of in *. cbn [fst] in *. now rewrite Hres.
Qed.

Lemma WithPanicRecovery_contained (handler : Handler)
    (resolver : RequestInfoResolver) req s :
  ReallyCrash = false ->
  result_of (WithPanicRecovery handler resolver req s) = Ok tt.
Proof.
  intros Hoff. rewrite WithPanicRecovery_result, Hoff.
  now destruct (result_of (dispatched handler req s)) as [[]|v].
Qed.

(** ** What leaves the filter *)



(** X3: the filter touches the response writer in one case only, a panic
    with a value other than [http.ErrAbortHandler], and then by the one
    [http.Error]; after a return, and after a panic with
    [http.ErrAbortHandler], the writer and the stacks are as the dispatched
    handler left them. *)
Theorem X3_writer_touched_only_on_generic_panic (handler : Handler)
    (resolver : RequestInfoResolver) req s :
  world_of (WithPanicRecovery handler resolver req s)
  = match result_of (dispatched handler req s) with
    | Ok _ => world_of (dispatched handler req s)
    | Panic v =>
        if iface_eq v ErrAbortHandler
        then world_of (dispatched handler req s)
        else {| writer :=
                  http_Error_on (writer (world_of (dispatched handler req s)))
                    "This request caused apiserver to panic. Look in the logs for details."
                    500;
                stacks := stacks (world_of (dispatched handler req s)) |}
    end.
Proof.
  unfold WithPanicRecovery.
  destruct (dispatched handler req s) as [[[[]|v] s1] t1] eqn:Hrun.
  - now rewrite (withPanicRecovery_returns handler _ req s s1 t1 Hrun).
  - unfold result_of at 1. cbn [fst].
    destruct (iface_eq v ErrAbortHandler) eqn:Hv.
    + now rewrite (withPanicRecovery_panics handler _ req s v s1 t1 _ _ _ Hrun
                     (crashHandler_abort resolver req v s1 Hv)).
    + now rewrite (withPanicRecovery_panics handler _ req s v s1 t1 _ _ _ Hrun
                     (crashHandler_generic resolver req v s1 Hv)).
Qed.

(** X4: the resolver is asked once on the abort path and never on the
    generic path, where the run of the crash handler is the same whatever
    the resolver. *)
Theorem X4_resolver_only_on_abort_path (resolver resolver' : RequestInfoResolver)
    req v s :
  resolver_calls (calls_of (crashHandler resolver req v s))
  = (if iface_eq v ErrAbortHandler then [NewRequestInfo req] else [])
  /\ (iface_eq v ErrAbortHandler = false ->
      crashHandler resolver req v s = crashHandler resolver' req v s).
Proof.
  split.
  - destruct (iface_eq v ErrAbortHandler) eqn:Hv.
    + now rewrite (crashHandler_abort resolver req v s Hv).
    + now rewrite (crashHandler_generic resolver req v s Hv).
  - intros Hv. now rewrite !crashHandler_generic.
Qed.

(** X5: when the handler the guard dispatches to panics with
    [http.ErrAbortHandler], the wrapped handler adds, after the process-wide
    panic handlers, the six calls of the abort path and no write; the writer
    stays as the panic left it. *)
Theorem X5_abort_panic_end_to_end (handler : Handler)
    (resolver : RequestInfoResolver) req s v s1 t1 :
  iface_eq v ErrAbortHandler = true ->
  dispatched handler req s = (Panic v, s1, t1) ->
  WithPanicRecovery handler resolver req s
  = (if ReallyCrash then Panic v else Ok tt,
     s1,
     t1 ++ global_calls v ++
       [HeaderGet HeaderAuditID;
        KlogErrorf (stack_record req (audit_id_of s1) v (stack_text (stacks s1)));
        KlogErrorf (abort_record req (audit_id_of s1) v);
        NewRequestInfo req;
        RecordRequestAbort req
          (match resolver req with
           | (_, Some _) => None
           | (info, None) => info
           end);
        HandleError (report_message req (audit_id_of s1))]).
Proof.
  intros Hv Hpanic. unfold WithPanicRecovery.
  now rewrite (withPanicRecovery_panics handler _ req s v s1 t1 _ _ _ Hpanic
                 (crashHandler_abort resolver req v s1 Hv)).
Qed.


(** X9: the guard does not contain a panic of the crash handler itself:
    when the callback panics while handling [v], the wrapped handler panics
    with the callback's value, with [runtime.ReallyCrash] on or off, and
    [v] is not raised again. *)
Theorem X9_crash_handler_panic_escapes (handler : Handler)
    (ch : Request -> GoValue -> M unit) req s v s1 t1 v' :
  dispatched handler req s = (Panic v, s1, t1) ->
  result_of (ch req v s1) = Panic v' ->
  result_of (withPanicRecovery handler ch req s) = Panic v'
  /\ calls_of (withPanicRecovery handler ch req s)
     = t1 ++ global_calls v ++ calls_of (ch req v s1).
Proof.
  intros Hrun Hbroken.
  destruct (ch req v s1) as [[r s2] t2] eqn:Hch.
  rewrite (withPanicRecovery_panics handler ch req s v s1 t1 r s2 t2 Hrun Hch).
  unfold result_of in Hbroken. cbn [fst] in Hbroken. subst r.
  split; reflexivity.
Qed.

End Further.

(** ** Short and long stacks *)

Lemma length_list_byte_of_string (text : string) :
  length (list_byte_of_string text) = String.length text.
Proof.
  rewrite <- length_string_of_list_byte.
  now rewrite string_of_list_byte_of_string.
Qed.

(** X7: a stack text of at most 50 KiB comes back whole behind the
    newline: nothing is cut and none of the buffer's spare bytes is
    appended; an empty stack gives the newline alone. *)
Theorem X7_short_stack_is_kept_whole (text : string) (rest : list (list Byte.byte)) :
  (Z.of_nat (String.length text) <= 50 * 1024)%Z ->
  currentStack {| current := list_byte_of_string text; others := rest |}
  = Some (String "010" text).
Proof.
  intros Hshort. rewrite currentStack_total. unfold stack_text. cbn [current].
  rewrite take_ge by (rewrite length_list_byte_of_string; lia).
  now rewrite string_of_list_byte_of_string.
Qed.

(** X8: a stack text of 50 KiB or more is cut to its first 50 KiB exactly:
    the result is the newline and those bytes, the rest is dropped. *)
Theorem X8_long_stack_is_cut_at_50KiB (g : Goroutines) :
  (50 * 1024 <= Z.of_nat (length (current g)))%Z ->
  exists kept dropped : list Byte.byte,
    current g = kept ++ dropped
    /\ Z.of_nat (length kept) = (50 * 1024)%Z
    /\ currentStack g = Some (String "010" (string_of_list_byte kept)).
Proof.
  intros Hlong.
  exists (take (Z.to_nat (50 * 1024)) (current g)),
         (drop (Z.to_nat (50 * 1024)) (current g)).
  split; [now rewrite take_drop|]. split.
  - rewrite length_take. lia.
  - apply currentStack_total.
Qed.

(** * The properties on the recording writer *)

Import Demo.

(** A handler that panics with ["boom"]: status 500, the fixed body, one
    stack record that carries ["boom"]. *)
Lemma C1_boom :
  iface_eq (StringVal "boom") ErrAbortHandler = false
  /\ dispatched (panics_with (StringVal "boom")) get_pods fresh
     = (Panic (StringVal "boom"), fresh,
        [HandlerCall "httplog: request received"; HandlerCall "inner handler"])
  /\ WithPanicRecovery (panics_with (StringVal "boom")) resolves get_pods fresh
     = (Ok tt,
        {| writer :=
             {| HeaderMap :=
                  <["X-Content-Type-Options" := ["nosniff"]]>
                    (<["Content-Type" := ["text/plain; charset=utf-8"]]>
                       {[ "Audit-Id" := ["a1b2"] ]});
                Code := Some 500%Z;
                Body := "This request caused apiserver to panic. Look in the logs for details."
                        +:+ String "010" "" |};
           stacks := stacks fresh |},
        [HandlerCall "httplog: request received";
         HandlerCall "inner handler";
         HandlerCall "Observed a panic: boom";
         HeaderGet "Audit-ID";
         KlogErrorf
           ("As soon as the panic occurs, immediately output the error stack, method: GET, URI: /api/v1/pods, auditID: a1b2, current error: boom, error stack: "
            +:+ String "010" "goroutine 7 [running]:");
         HttpError "This request caused apiserver to panic. Look in the logs for details." 500;
         KlogErrorf "apiserver panic'd on method: GET, URI: /api/v1/pods, auditID: a1b2"]).
Proof.
  split; [reflexivity|]. split; [reflexivity|].
  etransitivity.
  - apply (C1_generic_panic_yields_500 (panics_with (StringVal "boom")) resolves
             get_pods fresh (StringVal "boom") fresh
             [HandlerCall "httplog: request received"; HandlerCall "inner handler"]);
      reflexivity.
  - vm_compute. reflexivity.
Defined.

(** The handler panics with [http.ErrAbortHandler] and the resolver fails:
    nothing is written, the abort metric gets no info, one report carries
    the method and the URI. *)
Lemma C2_abort_on_recorder :
  iface_eq ErrAbortHandler ErrAbortHandler = true
  /\ crashHandler fails_to_resolve get_pods ErrAbortHandler fresh
     = (Ok tt, fresh,
        [HeaderGet "Audit-ID";
         KlogErrorf
           ("As soon as the panic occurs, immediately output the error stack, method: GET, URI: /api/v1/pods, auditID: a1b2, current error: net/http: abort Handler, error stack: "
            +:+ String "010" "goroutine 7 [running]:");
         KlogErrorf
           "Encountered an http.ErrAbortHandler error, method: GET, URI: /api/v1/pods, auditID: a1b2, current error: net/http: abort Handler";
         NewRequestInfo get_pods;
         RecordRequestAbort get_pods None;
         HandleError
           ("timeout or abort while handling, method: GET, URI: "
            +:+ quote "/api/v1/pods" +:+ ", auditID: " +:+ quote "a1b2")])
  /\ response_writes (calls_of (crashHandler fails_to_resolve get_pods ErrAbortHandler fresh))
     = [].
Proof.
  split; [reflexivity|].
  destruct (C2_abort_writes_nothing fails_to_resolve get_pods ErrAbortHandler fresh
              eq_refl) as [Hrun Hwrites].
  split; [|exact Hwrites].
  etransitivity; [exact Hrun|]. vm_compute. reflexivity.
Defined.

Lemma C5_both_resolvers :
  iface_eq ErrAbortHandler ErrAbortHandler = true
  /\ fails_to_resolve get_pods = (None, Some (ErrorString 9 "unable to resolve"))
  /\ resolves get_pods = (Some "list", None)
  /\ [result_of (crashHandler fails_to_resolve get_pods ErrAbortHandler fresh);
      result_of (crashHandler resolves get_pods ErrAbortHandler fresh)]
     = [Ok tt; Ok tt]
  /\ drop 4 (calls_of (crashHandler fails_to_resolve get_pods ErrAbortHandler fresh))
     = [RecordRequestAbort get_pods None;
        HandleError (report_message get_pods "a1b2")]
  /\ drop 4 (calls_of (crashHandler resolves get_pods ErrAbortHandler fresh))
     = [RecordRequestAbort get_pods (Some "list");
        HandleError (report_message get_pods "a1b2")].
Proof.
  split; [reflexivity|]. split; [reflexivity|]. split; [reflexivity|].
  destruct (C5_resolver_error_is_contained fails_to_resolve get_pods ErrAbortHandler
              fresh eq_refl) as [Hfails _].
  destruct (C5_resolver_error_is_contained resolves get_pods ErrAbortHandler
              fresh eq_refl) as [_ Hresolves].
  rewrite (Hfails None (ErrorString 9 "unable to resolve") eq_refl).
  rewrite (Hresolves (Some "list") eq_refl).
  repeat split.
Defined.

Lemma C7_boom_and_lookalike :
  iface_eq (StringVal "boom") ErrAbortHandler = false
  /\ iface_eq lookalike ErrAbortHandler = false
  /\ writer fresh = writer elsewhere
  /\ writer (world_of (crashHandler resolves get_pods (StringVal "boom") fresh))
     = writer (world_of (crashHandler resolves get_pods lookalike elsewhere))
  /\ response_writes (calls_of (crashHandler resolves get_pods lookalike elsewhere))
     = [HttpError
          "This request caused apiserver to panic. Look in the logs for details."
          500].
Proof.
  split; [reflexivity|]. split; [reflexivity|]. split; [reflexivity|].
  destruct (C7_response_independent_of_failure resolves get_pods
              (StringVal "boom") lookalike fresh elsewhere eq_refl eq_refl eq_refl)
    as (Hwriter & Hone & Hsame & _).
  split; [exact Hwriter|]. now rewrite Hsame.
Defined.

Lemma C8_faulty_logging_recovered :
  (forall s0, result_of (serves get_pods s0) = Ok tt)
  /\ faulty_logging serves (fun status => (500 <=? status)%Z) get_pods unaudited
     = (Panic (StringVal "httplog: broken"), unaudited, [HandlerCall "inner handler"])
  /\ calls_of (withPanicRecovery (C := faulty) serves (crashHandler (C := faulty) resolves)
                 get_pods unaudited)
     = [HandlerCall "inner handler";
        HandlerCall "Observed a panic: httplog: broken";
        HeaderGet "Audit-ID";
        KlogErrorf
          ("As soon as the panic occurs, immediately output the error stack, method: GET, URI: /api/v1/pods, auditID: , current error: httplog: broken, error stack: "
           +:+ String "010" "goroutine 7 [running]:");
        HttpError "This request caused apiserver to panic. Look in the logs for details." 500;
        KlogErrorf "apiserver panic'd on method: GET, URI: /api/v1/pods, auditID: "].
Proof.
  split; [reflexivity|]. split; [reflexivity|].
  destruct (C8_logging_inside_guard (C := faulty) serves
              (crashHandler (C := faulty) resolves) get_pods unaudited) as [_ Hpanic].
  destruct (Hpanic (StringVal "httplog: broken") unaudited [HandlerCall "inner handler"]
              (fun s0 => eq_refl) eq_refl) as [Hcalls _].
  etransitivity; [exact Hcalls|]. vm_compute. reflexivity.
Defined.

Lemma C9_lookalike_and_wrapper :
  7%N <> ErrAbortHandler_addr
  /\ response_writes (calls_of (crashHandler resolves get_pods lookalike fresh))
     = [HttpError panic_body 500]
  /\ response_writes
       (calls_of (crashHandler resolves get_pods
                    (WrapError 8 "proxy: net/http: abort Handler" ErrAbortHandler) fresh))
     = [HttpError panic_body 500]
  /\ response_writes (calls_of (crashHandler resolves get_pods ErrAbortHandler fresh))
     = [].
Proof.
  assert (Hneq : 7%N <> ErrAbortHandler_addr) by discriminate.
  split; [exact Hneq|].
  destruct (C9_classification_by_identity resolves get_pods fresh)
    as (Hother & Hwrap & Hsentinel).
  pose proof (Hother 7%N Hneq) as Hlook. cbv zeta in Hlook.
  change (ErrorString 7 (fmt_v ErrAbortHandler)) with lookalike in Hlook.
  pose proof (Hwrap 8%N "proxy: net/http: abort Handler") as Hwrapped.
  cbv zeta in Hwrapped. destruct Hwrapped as [_ Hwrapped].
  destruct (Hsentinel ErrAbortHandler) as [_ Habort].
  rewrite Hlook, Hwrapped, Habort by (exists "net/http: abort Handler"; reflexivity).
  repeat split.
Defined.

Lemma C10_no_audit_header :
  Header (writer unaudited) !! CanonicalMIMEHeaderKey HeaderAuditID = None
  /\ audit_id_of unaudited = ""
  /\ calls_of (crashHandler resolves get_pods (StringVal "boom") unaudited)
     = [HeaderGet "Audit-ID";
        KlogErrorf
          ("As soon as the panic occurs, immediately output the error stack, method: GET, URI: /api/v1/pods, auditID: , current error: boom, error stack: "
           +:+ String "010" "goroutine 7 [running]:");
        HttpError "This request caused apiserver to panic. Look in the logs for details." 500;
        KlogErrorf "apiserver panic'd on method: GET, URI: /api/v1/pods, auditID: "].
Proof.
  destruct (C10_audit_id_read_once resolves get_pods (StringVal "boom") unaudited)
    as (Hcalls & _ & Habsent).
  split; [reflexivity|]. split; [exact (Habsent eq_refl)|].
  etransitivity; [exact Hcalls|]. vm_compute. reflexivity.
Defined.

(** C8, as the specification words it, fails: were the decorator outside
    the guard, a panic of the decorator's own code would leave the request
    unrecovered; the filter recovers it and answers 500. *)
Lemma C8_logging_outside_guard_refuted :
  withPanicRecovery_logging_outside (C := faulty) serves
    (crashHandler (C := faulty) resolves) get_pods unaudited
  = (Panic (StringVal "httplog: broken"), unaudited, [HandlerCall "inner handler"])
  /\ result_of (WithPanicRecovery (C := faulty) serves resolves get_pods unaudited)
     = Ok tt
  /\ response_writes
       (calls_of (WithPanicRecovery (C := faulty) serves resolves get_pods unaudited))
     = [HttpError panic_body 500]
  /\ WithPanicRecovery (C := faulty) serves resolves get_pods unaudited
     <> withPanicRecovery_logging_outside (C := faulty) serves
          (crashHandler (C := faulty) resolves) get_pods unaudited.
Proof.
  split; [reflexivity|]. split; [reflexivity|]. split; [reflexivity|].
  intros Heq. apply (f_equal result_of) in Heq. vm_compute in Heq. discriminate Heq.
Qed.

(** ** The further properties on the recording writer *)



Lemma X4_boom_needs_no_resolver :
  iface_eq (StringVal "boom") ErrAbortHandler = false
  /\ resolver_calls (calls_of (crashHandler resolves get_pods (StringVal "boom") fresh))
     = []
  /\ crashHandler resolves get_pods (StringVal "boom") fresh
     = crashHandler fails_to_resolve get_pods (StringVal "boom") fresh.
Proof.
  split; [reflexivity|].
  destruct (X4_resolver_only_on_abort_path resolves fails_to_resolve get_pods
              (StringVal "boom") fresh) as [Hcalls Hsame].
  split; [exact Hcalls | exact (Hsame eq_refl)].
Defined.

Lemma X5_abort_through_the_filter :
  iface_eq ErrAbortHandler ErrAbortHandler = true
  /\ dispatched (panics_with ErrAbortHandler) get_pods fresh
     = (Panic ErrAbortHandler, fresh,
        [HandlerCall "httplog: request received"; HandlerCall "inner handler"])
  /\ WithPanicRecovery (panics_with ErrAbortHandler) fails_to_resolve get_pods fresh
     = (Ok tt, fresh,
        [HandlerCall "httplog: request received";
         HandlerCall "inner handler";
         HeaderGet "Audit-ID";
         KlogErrorf
           ("As soon as the panic occurs, immediately output the error stack, method: GET, URI: /api/v1/pods, auditID: a1b2, current error: net/http: abort Handler, error stack: "
            +:+ String "010" "goroutine 7 [running]:");
         KlogErrorf
           "Encountered an http.ErrAbortHandler error, method: GET, URI: /api/v1/pods, auditID: a1b2, current error: net/http: abort Handler";
         NewRequestInfo get_pods;
         RecordRequestAbort get_pods None;
         HandleError
           ("timeout or abort while handling, method: GET, URI: "
            +:+ quote "/api/v1/pods" +:+ ", auditID: " +:+ quote "a1b2")]).
Proof.
  split; [reflexivity|]. split; [reflexivity|].
  etransitivity.
  - apply (X5_abort_panic_end_to_end (panics_with ErrAbortHandler) fails_to_resolve
             get_pods fresh ErrAbortHandler fresh
             [HandlerCall "httplog: request received"; HandlerCall "inner handler"]);
      reflexivity.
  - vm_compute. reflexivity.
Defined.

Lemma logging_is_quiet : quiet_decorator.
Proof.
  intros h Hh req s. specialize (Hh req s).
  unfold dispatched. cbn [httplog_WithLogging collaborators collaborators_with].
  unfold logging, bind, emit.
  destruct (h req s) as [[[[]|v] s1] t1]; [reflexivity | discriminate Hh].
Defined.


Lemma X7_short_and_empty_stacks :
  (Z.of_nat (String.length "goroutine 7 [running]:") <= 50 * 1024)%Z
  /\ currentStack (stacks fresh) = Some (String "010" "goroutine 7 [running]:")
  /\ currentStack bare = Some (String "010" "").
Proof.
  assert (Hshort : (Z.of_nat (String.length "goroutine 7 [running]:") <= 50 * 1024)%Z)
    by (cbn; lia).
  split; [exact Hshort|]. split.
  - exact (X7_short_stack_is_kept_whole "goroutine 7 [running]:"
             [list_byte_of_string "goroutine 1 [chan receive]:"] Hshort).
  - apply (X7_short_stack_is_kept_whole "" []). cbn. lia.
Defined.

Lemma X8_deep_stack_cut :
  (50 * 1024 <= Z.of_nat (length (current deep)))%Z
  /\ exists kept dropped : list Byte.byte,
       current deep = kept ++ dropped
       /\ Z.of_nat (length kept) = (50 * 1024)%Z
       /\ currentStack deep = Some (String "010" (string_of_list_byte kept)).
Proof.
  assert (Hlong : (50 * 1024 <= Z.of_nat (length (current deep)))%Z).
  { unfold deep. cbn [current]. rewrite length_replicate. lia. }
  split; [exact Hlong|].
  exact (X8_long_stack_is_cut_at_50KiB deep Hlong).
Defined.

Lemma X9_broken_crash_handler :
  dispatched (panics_with (StringVal "boom")) get_pods fresh
  = (Panic (StringVal "boom"), fresh,
     [HandlerCall "httplog: request received"; HandlerCall "inner handler"])
  /\ result_of (broken_crash_handler get_pods (StringVal "boom") fresh)
     = Panic (StringVal "crash handler broke")
  /\ ReallyCrash = false
  /\ result_of (withPanicRecovery (panics_with (StringVal "boom")) broken_crash_handler
                  get_pods fresh)
     = Panic (StringVal "crash handler broke").
Proof.
  split; [reflexivity|]. split; [reflexivity|]. split; [reflexivity|].
  exact (proj1 (X9_crash_handler_panic_escapes (panics_with (StringVal "boom"))
                  broken_crash_handler get_pods fresh (StringVal "boom") fresh
                  [HandlerCall "httplog: request received"; HandlerCall "inner handler"]
                  (StringVal "crash handler broke") eq_refl eq_refl)).
Defined.
